(** * shunt: the DNS client's query pipeline (client/main.go)

    A shallow embedding of [DNSClient.Query], [cacheSet] and [cacheGet]
    together with the routing table they consult, and the properties of
    the resolver's specification proved about them.

    Conventions of the embedding.
    - Go strings are byte strings: [string].
    - [uint16] and [int] values are [Z]; the one place where the source
      multiplies 64-bit integers ([time.Duration(minTTL) * time.Second])
      has its wrap-around written out ([wrap64]).
    - Instants are nanoseconds on the process clock ([Time := Z]);
      every [time.Now()] of the source is an explicit argument.
    - A slice of answers is a reference into a store of backing arrays
      ([heap]); [cacheGet] writes through that reference, so the store
      is threaded through every operation.
    - [sync.Map] is a finite map from keys to values of type [any]. *)

From Stdlib Require Import Ascii.
From stdpp Require Import gmap strings list fin_maps pretty.

Open Scope Z_scope.

(** ** Answers and the store of backing arrays *)

(** [type Answer struct]. The field [Type] is spelled [Type_]. *)
Record Answer := mkAnswer {
  Name : string;   (* the record owner *)
  Type_ : Z;       (* uint16: the DNS record type *)
  TTL : Z;         (* int: seconds the answer may be cached *)
  Data : string    (* the record value *)
}.

(** [ans.TTL = ttl], the only field assignment of the source. *)
Definition setTTL (ttl : Z) (a : Answer) : Answer :=
  {| Name := Name a; Type_ := Type_ a; TTL := ttl; Data := Data a |}.

Definition loc := positive.

(** Backing arrays of [[]Answer] values, by address. *)
Abbreviation heap := (gmap loc (list Answer)).

(** A [[]Answer] value: [nil], or a reference to a backing array that it
    spans entirely (the source never re-slices). *)
Definition slice := option loc.

Definition nil_slice : slice := None.

(** The elements a slice denotes in a store; the [nil] slice has none. *)
Definition deref (h : heap) (s : slice) : list Answer :=
  match s with
  | None => []
  | Some p => default [] (h !! p)
  end.

(** A composite literal [[]Answer{...}]: a new array at an unused address. *)
Definition alloc (h : heap) (l : list Answer) : heap * slice :=
  let p := fresh (dom h) in (<[p := l]> h, Some p).

(** [for idx := range s { s[idx].TTL = ttl }]: an update in place. *)
Definition writeTTL (h : heap) (s : slice) (ttl : Z) : heap :=
  match s with
  | None => h
  | Some p => alter (map (setTTL ttl)) p h
  end.

(** ** Time (package time) *)

Definition Time := Z.       (* an instant, in nanoseconds *)
Definition Duration := Z.   (* int64 nanoseconds *)

Definition Second : Duration := 1000000000.

Definition minDuration : Duration := - 2 ^ 63.
Definition maxDuration : Duration := 2 ^ 63 - 1.

(** Two's-complement reduction of an integer to 64 bits: the value of an
    [int64] expression whose exact result is [z]. *)
Definition wrap64 (z : Z) : Z := (z + 2 ^ 63) mod 2 ^ 64 - 2 ^ 63.

(** The largest number of seconds whose nanoseconds fit an [int64]. *)
Definition maxSeconds : Z := 9223372036.

(** [t.Add(d)]. *)
Definition Add (t : Time) (d : Duration) : Time := t + d.

(** [t.Sub(u)]: the difference as a [Duration]; out of the range of a
    [Duration] it is the maximum (or minimum) duration. *)
Definition Sub (t u : Time) : Duration :=
  Z.max minDuration (Z.min maxDuration (t - u)).

(** [int(math.Ceil(d.Seconds()))]: the number of seconds of [d], rounded
    up. [Duration.Seconds] goes through [float64]; the embedding computes
    the ceiling on the integers, which is what the floating-point
    computation yields for every duration below 2^23 seconds and
    agrees with it in sign everywhere. *)
Definition ceilSeconds (d : Duration) : Z := - ((- d) / Second).

(** ** The client *)

(** [type dnsClient func(string, uint16) []Answer]: an upstream
    transport. It builds its result in the store. *)
Definition dnsClient := heap -> string -> Z -> heap * slice.

(** [type dnsCached struct]. *)
Record dnsCached := mkCached {
  answer : slice;
  expired : Time
}.

(** The values of the [sync.Map]: [*dnsCached] or anything else. The
    struct behind the pointer is never written after [cacheSet] built
    it, so the pointer is modelled by the struct. *)
Inductive any :=
  | ptrCached (v : dnsCached)
  | otherValue.

(** Modelled from the spec: the type [dnsRouter] of the field [router]
    is declared outside client/main.go; the spec (4.1) describes it as
    a map keyed by fully-qualified domain. *)
Abbreviation dnsRouter := (gmap string dnsClient).

(** [type DNSClient struct]. A [nil] Go map reads like the empty map. *)
Record DNSClient := mkClient {
  cache : gmap string any;          (* MAP("domain|type") => dnsCached *)
  router : dnsRouter;
  staticIpV4 : gmap string string;
  staticIpV6 : gmap string string
}.

(** The client after a write to [c.cache]. *)
Definition withCache (c : DNSClient) (m : gmap string any) : DNSClient :=
  {| cache := m; router := router c;
     staticIpV4 := staticIpV4 c; staticIpV6 := staticIpV6 c |}.

(** ** The answer cache *)

(** The loop of [cacheSet]: starting from [answer[0].TTL], keep the
    smaller value while ranging over the answers. *)
Definition minTTLFrom (init : Z) (l : list Answer) : Z :=
  fold_left (fun minTTL ans => if TTL ans <? minTTL then TTL ans else minTTL)
            l init.

Definition minTTL (a0 : Answer) (rest : list Answer) : Z :=
  minTTLFrom (TTL a0) (a0 :: rest).

(** [func (c *DNSClient) cacheSet(key string, answer []Answer)], with
    [now] the instant [time.Now()] returns. *)
Definition cacheSet (c : DNSClient) (h : heap) (key : string)
    (ans : slice) (now : Time) : DNSClient :=
  match deref h ans with
  | [] => c
  | a0 :: rest =>
      let val := {| answer := ans;
                    expired := Add now (wrap64 (minTTL a0 rest * Second)) |} in
      withCache c (<[key := ptrCached val]> (cache c))
  end.

(** The result of [cacheGet]: the client and the store afterwards, and
    the two values it returns. *)
Record getResult := mkGet {
  getClient : DNSClient;
  getHeap : heap;
  getAnswer : slice;
  getFound : bool
}.

(** [func (c *DNSClient) cacheGet(key string) ([]Answer, bool)], with
    [now] the instant [time.Now()] returns. *)
Definition cacheGet (c : DNSClient) (h : heap) (key : string)
    (now : Time) : getResult :=
  match cache c !! key with
  | None => mkGet c h nil_slice false
  | Some otherValue =>
      mkGet (withCache c (delete key (cache c))) h nil_slice false
  | Some (ptrCached cached) =>
      let elapsed := Sub (expired cached) now in
      let ttl := ceilSeconds elapsed in
      if ttl <=? 0 then
        mkGet (withCache c (delete key (cache c))) h nil_slice false
      else
        mkGet c (writeTTL h (answer cached) ttl) (answer cached) true
  end.

(** ** Names (package dns of github.com/miekg/dns) *)

Definition TypeA : Z := 1.
Definition TypeAAAA : Z := 28.

Definition dot : Ascii.ascii := "."%char.
Definition backslash : Ascii.ascii := "092"%char.

(** The number of backslashes a list of bytes starts with. *)
Fixpoint leadingBackslashes (l : list Ascii.ascii) : nat :=
  match l with
  | a :: l' => if Ascii.eqb a backslash then S (leadingBackslashes l') else O
  | [] => O
  end.

(** [dns.IsFqdn]: the name ends in a dot that is not escaped, that is,
    one preceded by an even number of backslashes. The bytes are read
    from the end of the name. *)
Definition IsFqdn (s : string) : bool :=
  match rev (String.list_ascii_of_string s) with
  | [] => false
  | last :: s' =>
      if negb (Ascii.eqb last dot) then false
      else Nat.odd (S (leadingBackslashes s'))
  end.

(** [dns.Fqdn]: the identity on a fully qualified name, and otherwise
    the name with a dot appended. *)
Definition Fqdn (s : string) : string :=
  if IsFqdn s then s else s +:+ ".".

(** ** The routing table *)

(** Modelled from the spec: [add] of [dnsRouter] (4.1): registers the
    handle for the domain; a second registration of a domain replaces
    the first. *)
Definition add (r : dnsRouter) (domain : string) (cli : dnsClient) : dnsRouter :=
  <[domain := cli]> r.

(** Modelled from the spec: the successive parent domains of a domain
    (4.1), each obtained from the one before by stripping its leftmost
    label together with the dot that ends it, down to the root, where
    nothing is left. *)
Fixpoint parents (domain : string) : list string :=
  match domain with
  | EmptyString => []
  | String a rest =>
      if Ascii.eqb a dot then
        match rest with
        | EmptyString => []
        | _ => rest :: parents rest
        end
      else parents rest
  end.

(** Modelled from the spec: the walk of [route] (4.1) over the domain
    and its parents, stopping at the first one that is registered. *)
Fixpoint firstMatch (r : dnsRouter) (domains : list string) : option dnsClient :=
  match domains with
  | [] => None
  | d :: ds =>
      match r !! d with
      | Some cli => Some cli
      | None => firstMatch r ds
      end
  end.

(** Modelled from the spec: [route] of [dnsRouter] (4.1); [None] is the
    [nil] handle. *)
Definition route (r : dnsRouter) (domain : string) : option dnsClient :=
  firstMatch r (domain :: parents domain).


(** Whether the byte [|], which [cacheKey] puts between the name and
    the type, occurs in a string. *)
Fixpoint hasBar (s : string) : bool :=
  match s with
  | EmptyString => false
  | String a s' => if Ascii.eqb a "|"%char then true else hasBar s'
  end.

(** ** The dispatcher *)

(** [name + "|" + strconv.Itoa(int(qtype))]. *)
Definition cacheKey (name : string) (qtype : Z) : string :=
  name +:+ "|" +:+ pretty qtype.

(** [func (c *DNSClient) Query(name string, qtype uint16) []Answer].
    [tGet] and [tSet] are the instants read by [cacheGet] and by
    [cacheSet]; the result is the client and the store afterwards, and
    the slice returned. *)
Definition Query (c : DNSClient) (h : heap) (name : string) (qtype : Z)
    (tGet tSet : Time) : DNSClient * heap * slice :=
  let name := Fqdn name in
  let resolve :=
    let key := cacheKey name qtype in
    (* from cache *)
    let r := cacheGet c h key tGet in
    if getFound r then (getClient r, getHeap r, getAnswer r)
    else
      (* by config *)
      match route (router (getClient r)) name with
      | None => (getClient r, getHeap r, nil_slice)
      | Some cli =>
          let '(h', ans) := cli (getHeap r) name qtype in
          (cacheSet (getClient r) h' key ans tSet, h', ans)
      end in
  (* from staticIp *)
  if qtype =? TypeA then
    match staticIpV4 c !! name with
    | Some staticIp =>
        let '(h', s) := alloc h [mkAnswer name qtype 60 staticIp] in (c, h', s)
    | None => resolve
    end
  else if qtype =? TypeAAAA then
    match staticIpV6 c !! name with
    | Some staticIp =>
        let '(h', s) := alloc h [mkAnswer name qtype 60 staticIp] in (c, h', s)
    | None => resolve
    end
  else resolve.

(** ** Initialization *)

(** [config.Server], declared in package config: the three fields that
    [Init] reads. The type of [HttpsProxy], which [Init] only passes
    on, is a parameter. *)
Record Server (Proxy : Type) := mkServer {
  DNS : string;
  Domain : list string;
  HttpsProxy : Proxy
}.

Arguments mkServer {Proxy} _ _ _.
Arguments DNS {Proxy} _.
Arguments Domain {Proxy} _.
Arguments HttpsProxy {Proxy} _.

(** How a call of [Init] ends: it returns, or it panics; either way the
    client is left as the forwards handled so far have made it. *)
Inductive initOutcome :=
  | initReturns (c : DNSClient)
  | initPanics (c : DNSClient).

Definition clientOf (o : initOutcome) : DNSClient :=
  match o with
  | initReturns c => c
  | initPanics c => c
  end.

(** [c.staticIpV4[dns.Fqdn(domain)] = host]. *)
Definition setStaticIpV4 (host : string) (c : DNSClient) (domain : string)
    : DNSClient :=
  {| cache := cache c; router := router c;
     staticIpV4 := <[Fqdn domain := host]> (staticIpV4 c);
     staticIpV6 := staticIpV6 c |}.

(** [c.staticIpV6[dns.Fqdn(domain)] = host]. *)
Definition setStaticIpV6 (host : string) (c : DNSClient) (domain : string)
    : DNSClient :=
  {| cache := cache c; router := router c;
     staticIpV4 := staticIpV4 c;
     staticIpV6 := <[Fqdn domain := host]> (staticIpV6 c) |}.

(** [c.router.add(dns.Fqdn(domain), cli)]. *)
Definition addRoute (cli : dnsClient) (c : DNSClient) (domain : string)
    : DNSClient :=
  {| cache := cache c; router := add (router c) (Fqdn domain) cli;
     staticIpV4 := staticIpV4 c; staticIpV6 := staticIpV6 c |}.

Section Init.

(** What [Init] takes from outside the file: [url.Parse] with the
    fields [Scheme] and [Host] of its result, the assignment to
    [Scheme] and the method [String] (package net/url), and the two
    constructors of upstream clients. [url_Parse] is [None] when
    [url.Parse] returns an error. *)
Context {URL Proxy : Type}.
Context (url_Parse : string -> option URL).
Context (Scheme Host : URL -> string).
Context (setScheme : URL -> string -> URL).
Context (URL_String : URL -> string).
Context (GetUDPClient : string -> dnsClient).
Context (GetDoHClient : string -> Proxy -> dnsClient).

(** The body of the loop of [Init] after a successful [url.Parse]: the
    [switch] on the scheme and, for an upstream, the registration of
    the forward's domains. *)
Definition initForward (c : DNSClient) (forward : Server Proxy) (parsed : URL)
    : DNSClient :=
  let register cli := fold_left (addRoute cli) (Domain forward) c in
  if String.eqb (Scheme parsed) "ipv4" then
    fold_left (setStaticIpV4 (Host parsed)) (Domain forward) c
  else if String.eqb (Scheme parsed) "ipv6" then
    fold_left (setStaticIpV6 (Host parsed)) (Domain forward) c
  else if String.eqb (Scheme parsed) "udp" then
    register (GetUDPClient (Host parsed))
  else if String.eqb (Scheme parsed) "doh" then
    register (GetDoHClient (URL_String (setScheme parsed "https"))
                           (HttpsProxy forward))
  else if String.eqb (Scheme parsed) "tcp" || String.eqb (Scheme parsed) "dot" then
    c  (* WIP *)
  else
    c. (* unsupported scheme *)

(** [func (c *DNSClient) Init(forwards []config.Server)]. *)
Fixpoint Init (c : DNSClient) (forwards : list (Server Proxy)) : initOutcome :=
  match forwards with
  | [] => initReturns c
  | forward :: rest =>
      match url_Parse (DNS forward) with
      | None => initPanics c
      | Some parsed => Init (initForward c forward parsed) rest
      end
  end.

End Init.

(** ** Sample data

    Concrete clients, stores and upstreams on which the statements
    below are evaluated. *)

Definition ans5 : Answer := mkAnswer "example.com." 1 5 "192.0.2.1".
Definition ans30 : Answer := mkAnswer "example.com." 1 30 "192.0.2.2".

(** A store with one array, [[ans5, ans30]], and the slice over it. *)
Definition sampleHeap : heap := {[ 1%positive := [ans5; ans30] ]}.
Definition sampleSlice : slice := Some 1%positive.

(** A client with nothing configured and nothing cached. *)
Definition emptyClient : DNSClient := mkClient ∅ ∅ ∅ ∅.

(** An upstream that answers every query with one record of the given
    address and time-to-live. *)
Definition upstream (addr : string) (ttl : Z) : dnsClient :=
  fun h name qtype => alloc h [mkAnswer name qtype ttl addr].

(** An upstream that has no record for any query, and a client that
    forwards [example.com.] to it. *)
Definition upstreamNone : dnsClient := fun h _ _ => (h, nil_slice).
Definition silentClient : DNSClient :=
  mkClient ∅ (<["example.com." := upstreamNone]> ∅) ∅ ∅.

(** An entry over [sampleSlice] that expires at 4.2 seconds on the
    clock, and a client that holds it. *)
Definition sampleEntry : dnsCached := mkCached sampleSlice 4200000000.
Definition sampleKey : string := "example.com.|1".
Definition cachedClient : DNSClient :=
  withCache emptyClient {[ sampleKey := ptrCached sampleEntry ]}.

(** A client that forwards [example.com.] and its subdomains to an
    upstream answering 192.0.2.10 with a time-to-live of 300, and that
    overrides the IPv4 address of [example.com.] itself. *)
Definition routedClient : DNSClient :=
  mkClient ∅ (add ∅ "example.com." (upstream "192.0.2.10" 300))
           {[ "example.com." := "10.0.0.1" ]} ∅.

(** A store whose one array holds a single answer of the given
    time-to-live; [sampleSlice] spans it. *)
Definition singleHeap (ttl : Z) : heap :=
  {[ 1%positive := [mkAnswer "example.com." 1 ttl "192.0.2.1"] ]}.

(** A stand-in for [url.Parse] on strings of the form scheme://host:
    the scheme and the host, or [None] without [://]. *)
Fixpoint sampleParse (s : string) : option (string * string) :=
  match s with
  | EmptyString => None
  | String a s' =>
      match s' with
      | String "/" (String "/" host) =>
          if Ascii.eqb a ":" then Some (EmptyString, host)
          else (fun p => (String a (fst p), snd p)) <$> sampleParse s'
      | _ => (fun p => (String a (fst p), snd p)) <$> sampleParse s'
      end
  end.

(** [Init] over [sampleParse], with upstreams that answer with the
    address they were built for. *)
Definition sampleInit : DNSClient -> list (Server unit) -> initOutcome :=
  Init sampleParse fst snd (fun u scheme => (scheme, snd u))
       (fun u => fst u +:+ "://" +:+ snd u)
       (fun host => upstream host 300)
       (fun url _ => upstream url 300).

(** An override, a forward with a scheme that is not implemented, and
    an upstream for everything under [example.com.]. *)
Definition sampleForwards : list (Server unit) :=
  [ mkServer "ipv4://10.0.0.1" ["example.com"; "example.org."] tt;
    mkServer "tcp://1.1.1.1" ["example.net"] tt;
    mkServer "udp://8.8.8.8" ["example.com"] tt ].

(** * Properties *)

(** Closed statements about the sample data are decided by evaluation. *)
Ltac by_compute := vm_compute; reflexivity.

(** ** Durations *)

Lemma Second_pos : 0 < Second.
Proof. reflexivity. Qed.

(** [ceilSeconds d] is the least number of seconds that covers [d]. *)
Lemma ceilSeconds_bounds (d : Duration) :
  (ceilSeconds d - 1) * Second < d <= ceilSeconds d * Second.
Proof.
  unfold ceilSeconds.
  pose proof (Z.div_mod (- d) Second) as Hdm.
  pose proof (Z.mod_pos_bound (- d) Second Second_pos) as Hr.
  specialize (Hdm ltac:(discriminate)).
  generalize dependent ((- d) / Second); intros q Hdm.
  generalize dependent ((- d) mod Second); intros r Hdm Hr.
  unfold Second in *. lia.
Qed.

Lemma ceilSeconds_unique (d : Duration) (n : Z) :
  (n - 1) * Second < d <= n * Second -> ceilSeconds d = n.
Proof.
  intros Hn. pose proof (ceilSeconds_bounds d) as Hc.
  unfold Second in *. lia.
Qed.

Lemma ceilSeconds_nonpos (d : Duration) : ceilSeconds d <= 0 <-> d <= 0.
Proof.
  pose proof (ceilSeconds_bounds d) as Hc. unfold Second in *. lia.
Qed.

Lemma ceilSeconds_whole (n : Z) : ceilSeconds (n * Second) = n.
Proof. apply ceilSeconds_unique. unfold Second. lia. Qed.

Lemma Sub_exact (t u : Time) :
  minDuration <= t - u <= maxDuration -> Sub t u = t - u.
Proof. unfold Sub. lia. Qed.

Lemma Sub_nonpos (t u : Time) : Sub t u <= 0 <-> t <= u.
Proof. unfold Sub, minDuration, maxDuration. lia. Qed.

Lemma wrap64_exact (z : Z) : - 2 ^ 63 <= z < 2 ^ 63 -> wrap64 z = z.
Proof.
  intros Hz. unfold wrap64.
  rewrite Z.mod_small; lia.
Qed.

(** ** The store *)

Lemma deref_writeTTL (h : heap) (s : slice) (ttl : Z) :
  deref (writeTTL h s ttl) s = map (setTTL ttl) (deref h s).
Proof.
  destruct s as [p|]; simpl; [|done].
  rewrite lookup_alter_eq. by destruct (h !! p).
Qed.

Lemma deref_writeTTL_ne (h : heap) (s s' : slice) (ttl : Z) :
  s <> s' -> deref (writeTTL h s ttl) s' = deref h s'.
Proof.
  intros Hne. destruct s as [p|], s' as [q|]; simpl; try done.
  rewrite lookup_alter_ne; [done | congruence].
Qed.

Lemma TTL_setTTL (ttl : Z) (a : Answer) : TTL (setTTL ttl a) = ttl.
Proof. done. Qed.



(** ** The cache: reading *)

Lemma cacheGet_absent (c : DNSClient) (h : heap) (key : string) (now : Time) :
  cache c !! key = None -> cacheGet c h key now = mkGet c h nil_slice false.
Proof. intros Hk. unfold cacheGet. by rewrite Hk. Qed.

(** Reads of a key that holds the entry [e]. *)
Section cached_entry.
Context (c : DNSClient) (h : heap) (key : string) (e : dnsCached) (now : Time).
Hypothesis Hentry : cache c !! key = Some (ptrCached e).

Let ttl : Z := ceilSeconds (Sub (expired e) now).

Lemma cacheGet_stale :
  ttl <= 0 ->
  cacheGet c h key now =
    mkGet (withCache c (delete key (cache c))) h nil_slice false.
Proof.
  intros Httl. unfold cacheGet. rewrite Hentry. simpl. fold ttl.
  destruct (Z.leb_spec ttl 0); [done | lia].
Qed.

Lemma cacheGet_live :
  0 < ttl ->
  cacheGet c h key now = mkGet c (writeTTL h (answer e) ttl) (answer e) true.
Proof.
  intros Httl. unfold cacheGet. rewrite Hentry. simpl. fold ttl.
  destruct (Z.leb_spec ttl 0); [lia | done].
Qed.
End cached_entry.

(** A read never reports an answer without finding one, and what it
    leaves in the cache is the cache it found or that cache less the key. *)
Lemma cacheGet_miss_cache (c : DNSClient) (h : heap) (key : string) (now : Time) :
  getFound (cacheGet c h key now) = false ->
  getAnswer (cacheGet c h key now) = nil_slice /\
  getHeap (cacheGet c h key now) = h /\
  cache (getClient (cacheGet c h key now)) !! key = None.
Proof.
  unfold cacheGet. destruct (cache c !! key) as [[e|]|] eqn:Hk; simpl.
  - destruct (ceilSeconds (Sub (expired e) now) <=? 0); simpl; [|done].
    intros _. by rewrite lookup_delete_eq.
  - intros _. by rewrite lookup_delete_eq.
  - done.
Qed.

Lemma cacheGet_config (c : DNSClient) (h : heap) (key : string) (now : Time) :
  router (getClient (cacheGet c h key now)) = router c /\
  staticIpV4 (getClient (cacheGet c h key now)) = staticIpV4 c /\
  staticIpV6 (getClient (cacheGet c h key now)) = staticIpV6 c.
Proof.
  unfold cacheGet. destruct (cache c !! key) as [[e|]|]; simpl; try done.
  by destruct (ceilSeconds (Sub (expired e) now) <=? 0).
Qed.





(** ** The dispatcher: the three paths of [Query] *)

Lemma Query_staticIpV4 (c : DNSClient) (h : heap) (name : string) (qtype : Z)
    (tGet tSet : Time) (ip : string) :
  qtype = TypeA -> staticIpV4 c !! Fqdn name = Some ip ->
  Query c h name qtype tGet tSet =
    (c, <[fresh (dom h) := [mkAnswer (Fqdn name) qtype 60 ip]]> h,
     Some (fresh (dom h))).
Proof. intros -> Hs. unfold Query. simpl. by rewrite Hs. Qed.

Lemma Query_staticIpV6 (c : DNSClient) (h : heap) (name : string) (qtype : Z)
    (tGet tSet : Time) (ip : string) :
  qtype = TypeAAAA -> staticIpV6 c !! Fqdn name = Some ip ->
  Query c h name qtype tGet tSet =
    (c, <[fresh (dom h) := [mkAnswer (Fqdn name) qtype 60 ip]]> h,
     Some (fresh (dom h))).
Proof. intros -> Hs. unfold Query. simpl. by rewrite Hs. Qed.

(** Without an override for the name and the type, [Query] is its
    cache-then-route part. *)
Lemma Query_no_static (c : DNSClient) (h : heap) (name : string) (qtype : Z)
    (tGet tSet : Time) :
  (qtype = TypeA -> staticIpV4 c !! Fqdn name = None) ->
  (qtype = TypeAAAA -> staticIpV6 c !! Fqdn name = None) ->
  Query c h name qtype tGet tSet =
    let key := cacheKey (Fqdn name) qtype in
    let r := cacheGet c h key tGet in
    if getFound r then (getClient r, getHeap r, getAnswer r)
    else
      match route (router c) (Fqdn name) with
      | None => (getClient r, getHeap r, nil_slice)
      | Some cli =>
          let '(h', ans) := cli (getHeap r) (Fqdn name) qtype in
          (cacheSet (getClient r) h' key ans tSet, h', ans)
      end.
Proof.
  intros H4 H6. unfold Query. cbv zeta.
  destruct (cacheGet_config c h (cacheKey (Fqdn name) qtype) tGet) as (-> & _ & _).
  destruct (Z.eqb_spec qtype TypeA) as [HA|HA].
  - by rewrite (H4 HA).
  - destruct (Z.eqb_spec qtype TypeAAAA) as [HAAAA|HAAAA]; [|done].
    by rewrite (H6 HAAAA).
Qed.

Lemma fresh_heap_unused (h : heap) : h !! fresh (dom h) = None.
Proof. apply not_elem_of_dom. apply is_fresh. Qed.

(** ** The cache: writing *)

Lemma cacheSet_empty (c : DNSClient) (h : heap) (key : string) (ans : slice)
    (now : Time) :
  deref h ans = [] -> cacheSet c h key ans now = c.
Proof. intros Hd. unfold cacheSet. by rewrite Hd. Qed.

Lemma cacheSet_nonempty (c : DNSClient) (h : heap) (key : string) (ans : slice)
    (now : Time) (a0 : Answer) (rest : list Answer) :
  deref h ans = a0 :: rest ->
  cacheSet c h key ans now =
    withCache c (<[key := ptrCached
                    (mkCached ans (Add now (wrap64 (minTTL a0 rest * Second))))]>
                  (cache c)).
Proof. intros Hd. unfold cacheSet. by rewrite Hd. Qed.





(** ** The dispatcher: the claims *)

(** C1: [Query] normalizes the name with [Fqdn] and then applies a fixed
    precedence. An override of the matching family answers an A or AAAA
    query with the synthesized record. Failing that, a fresh cache
    entry for the key is returned. Failing that, the routing table is
    asked for an upstream: with none the answer is empty; with one, it
    is invoked on the normalized name, its result is handed to
    [cacheSet] and returned as the upstream built it. *)
Theorem Query_precedence (c : DNSClient) (h : heap) (name : string) (qtype : Z)
    (tGet tSet : Time) :
  let fq := Fqdn name in
  let key := cacheKey fq qtype in
  let r := cacheGet c h key tGet in
  let q := Query c h name qtype tGet tSet in
  (forall ip, qtype = TypeA -> staticIpV4 c !! fq = Some ip ->
     q = (c, <[fresh (dom h) := [mkAnswer fq qtype 60 ip]]> h,
          Some (fresh (dom h)))) /\
  (forall ip, qtype = TypeAAAA -> staticIpV6 c !! fq = Some ip ->
     q = (c, <[fresh (dom h) := [mkAnswer fq qtype 60 ip]]> h,
          Some (fresh (dom h)))) /\
  ((qtype = TypeA -> staticIpV4 c !! fq = None) ->
   (qtype = TypeAAAA -> staticIpV6 c !! fq = None) ->
   (getFound r = true <->
      exists e, cache c !! key = Some (ptrCached e) /\
                0 < ceilSeconds (Sub (expired e) tGet)) /\
   (forall e, cache c !! key = Some (ptrCached e) ->
      0 < ceilSeconds (Sub (expired e) tGet) ->
      q = (c, writeTTL h (answer e) (ceilSeconds (Sub (expired e) tGet)),
           answer e)) /\
   (getFound r = false -> route (router c) fq = None ->
      q = (getClient r, h, nil_slice)) /\
   (forall cli h' ans,
      getFound r = false -> route (router c) fq = Some cli ->
      cli h fq qtype = (h', ans) ->
      q = (cacheSet (getClient r) h' key ans tSet, h', ans) /\
      deref (snd (fst q)) (snd q) = deref h' ans /\
      forall a0 rest, deref h' ans = a0 :: rest ->
        cache (fst (fst q)) !! key =
          Some (ptrCached
                  (mkCached ans (Add tSet (wrap64 (minTTL a0 rest * Second))))))).
Proof.
  intros fq key r q. subst q.
  split; [intros ip HA Hs; by apply Query_staticIpV4|].
  split; [intros ip HA Hs; by apply Query_staticIpV6|].
  intros H4 H6. rewrite (Query_no_static c h name qtype tGet tSet H4 H6).
  cbv zeta. fold fq key r.
  split; [|split; [|split]].
  - subst r. unfold cacheGet.
    destruct (cache c !! key) as [[e|]|] eqn:Hk; simpl.
    + destruct (Z.leb_spec (ceilSeconds (Sub (expired e) tGet)) 0); simpl.
      * split; [done|]. intros (e' & [= <-] & Hpos). lia.
      * split; [|done]. intros _. by exists e.
    + split; [done|]. by intros (e' & [=] & _).
    + split; [done|]. by intros (e' & [=] & _).
  - intros e Hk Hpos. subst r.
    by rewrite (cacheGet_live c h key e tGet Hk Hpos).
  - intros Hmiss Hroute. rewrite Hmiss, Hroute.
    destruct (cacheGet_miss_cache c h key tGet Hmiss) as (_ & Hh & _).
    fold r in Hh. by rewrite Hh.
  - intros cli h' ans Hmiss Hroute Hcli. rewrite Hmiss, Hroute.
    destruct (cacheGet_miss_cache c h key tGet Hmiss) as (_ & Hh & _).
    fold r in Hh. rewrite Hh, Hcli. simpl.
    split; [done|]. split; [done|].
    intros a0 rest Hd. rewrite (cacheSet_nonempty _ _ _ _ _ _ _ Hd). simpl.
    apply lookup_insert_eq.
Qed.

(** A first query for [www.example.com]: no override, nothing cached,
    the rule for [example.com.] applies and the upstream's record comes
    back with its time-to-live of 300. *)
Lemma Query_precedence_witness :
  deref (snd (fst (Query routedClient ∅ "www.example.com" TypeA 0 0)))
        (snd (Query routedClient ∅ "www.example.com" TypeA 0 0))
  = [mkAnswer "www.example.com." 1 300 "192.0.2.10"].
Proof.
  destruct (Query_precedence routedClient ∅ "www.example.com" TypeA 0 0)
    as (_ & _ & Hrest).
  destruct Hrest as (_ & _ & _ & Hup);
    [intros _; by_compute | intros [=] |].
  edestruct (Hup (upstream "192.0.2.10" 300)) as (_ & Hd & _);
    [by_compute | by_compute | reflexivity |].
  rewrite Hd. by_compute.
Defined.

(** C8: a query with no override, no cache entry and no matching
    routing rule returns the empty answer list. [Query] is a total
    function whose only result is a list of answers; here it is the
    [nil] slice, and neither the client nor the store has changed. *)
Theorem Query_no_route (c : DNSClient) (h : heap) (name : string) (qtype : Z)
    (tGet tSet : Time) :
  (qtype = TypeA -> staticIpV4 c !! Fqdn name = None) ->
  (qtype = TypeAAAA -> staticIpV6 c !! Fqdn name = None) ->
  cache c !! cacheKey (Fqdn name) qtype = None ->
  route (router c) (Fqdn name) = None ->
  Query c h name qtype tGet tSet = (c, h, nil_slice) /\
  deref h (snd (Query c h name qtype tGet tSet)) = [].
Proof.
  intros H4 H6 Hk Hroute.
  rewrite (Query_no_static c h name qtype tGet tSet H4 H6). cbv zeta.
  rewrite (cacheGet_absent c h _ tGet Hk). simpl. by rewrite Hroute.
Qed.

(** The sample client has no rule above [other.com.]. *)
Lemma Query_no_route_witness :
  Query routedClient sampleHeap "other.com" TypeA 0 0
  = (routedClient, sampleHeap, nil_slice).
Proof.
  apply (Query_no_route routedClient sampleHeap "other.com" TypeA 0 0).
  - intros _. by_compute.
  - intros [=].
  - by_compute.
  - by_compute.
Defined.

(** C6: a name in a static table, queried with the table's record
    type, is answered from the table whatever the cache and the routing
    table hold: one synthesized answer with the normalized name, the
    queried type, a [TTL] of 60 and the configured address, in a new
    array; the client, and with it the cache, is left as it was. With
    any other record type the IPv4 table is not consulted (nor the IPv6
    table for a type other than AAAA): the query goes to the cache and
    then to the routing table. *)
Theorem Query_static_override (c : DNSClient) (h : heap) (name : string)
    (qtype : Z) (tGet tSet : Time) :
  let fq := Fqdn name in
  let q := Query c h name qtype tGet tSet in
  (forall ip,
     (qtype = TypeA /\ staticIpV4 c !! fq = Some ip) \/
     (qtype = TypeAAAA /\ staticIpV6 c !! fq = Some ip) ->
     fst (fst q) = c /\
     deref (snd (fst q)) (snd q) = [mkAnswer fq qtype 60 ip] /\
     (exists p, h !! p = None /\ snd q = Some p /\
                snd (fst q) = <[p := [mkAnswer fq qtype 60 ip]]> h)) /\
  ((qtype <> TypeA \/ staticIpV4 c !! fq = None) ->
   (qtype <> TypeAAAA \/ staticIpV6 c !! fq = None) ->
   q = let key := cacheKey fq qtype in
       let r := cacheGet c h key tGet in
       if getFound r then (getClient r, getHeap r, getAnswer r)
       else
         match route (router c) fq with
         | None => (getClient r, getHeap r, nil_slice)
         | Some cli =>
             let '(h', ans) := cli (getHeap r) fq qtype in
             (cacheSet (getClient r) h' key ans tSet, h', ans)
         end).
Proof.
  intros fq q. subst q. split.
  - intros ip Hov.
    assert (Query c h name qtype tGet tSet =
            (c, <[fresh (dom h) := [mkAnswer fq qtype 60 ip]]> h,
             Some (fresh (dom h)))) as ->.
    { destruct Hov as [[HA Hs]|[HA Hs]];
        [by apply Query_staticIpV4 | by apply Query_staticIpV6]. }
    simpl. split; [done|]. split.
    + by rewrite lookup_insert_eq.
    + exists (fresh (dom h)). split; [apply fresh_heap_unused | done].
  - intros H4 H6. apply Query_no_static.
    + intros HA. by destruct H4.
    + intros HA. by destruct H6.
Qed.

(** [example.com.] has an IPv4 override and a routing rule: an A query
    is answered with the override, an AAAA query by the upstream. *)
Lemma Query_static_override_witness :
  deref (snd (fst (Query routedClient ∅ "example.com" TypeA 0 0)))
        (snd (Query routedClient ∅ "example.com" TypeA 0 0))
  = [mkAnswer "example.com." 1 60 "10.0.0.1"] /\
  deref (snd (fst (Query routedClient ∅ "example.com" TypeAAAA 0 0)))
        (snd (Query routedClient ∅ "example.com" TypeAAAA 0 0))
  = [mkAnswer "example.com." 28 300 "192.0.2.10"].
Proof.
  split.
  - destruct (Query_static_override routedClient ∅ "example.com" TypeA 0 0)
      as (Hov & _).
    destruct (Hov "10.0.0.1") as (_ & Hd & _); [|exact Hd].
    left. split; by_compute.
  - destruct (Query_static_override routedClient ∅ "example.com" TypeAAAA 0 0)
      as (_ & Hfall).
    rewrite Hfall.
    + by_compute.
    + left. discriminate.
    + right. by_compute.
Defined.

(** ** The cache: the claims about [cacheSet] *)

(** C5: [cacheSet] with an empty answer list changes nothing, so a read
    of the key afterwards behaves as it did before, and reports
    not-found when the key had no entry. In [Query], where [cacheSet]
    follows a read that missed, an upstream that returns an empty list
    leaves the key without an entry: a read after the query reports
    not-found, and the next query for the name reaches the upstream
    again. *)
Theorem cacheSet_empty_noop (c : DNSClient) (h : heap) (key : string)
    (ans : slice) (now : Time) :
  deref h ans = [] ->
  cacheSet c h key ans now = c /\
  (forall h' now',
     cacheGet (cacheSet c h key ans now) h' key now' = cacheGet c h' key now') /\
  (cache c !! key = None ->
   forall h' now',
     cacheGet (cacheSet c h key ans now) h' key now' =
       mkGet c h' nil_slice false) /\
  (forall h0 name qtype tGet tSet cli,
     (qtype = TypeA -> staticIpV4 c !! Fqdn name = None) ->
     (qtype = TypeAAAA -> staticIpV6 c !! Fqdn name = None) ->
     getFound (cacheGet c h0 (cacheKey (Fqdn name) qtype) tGet) = false ->
     route (router c) (Fqdn name) = Some cli ->
     cli h0 (Fqdn name) qtype = (h, ans) ->
     Query c h0 name qtype tGet tSet =
       (getClient (cacheGet c h0 (cacheKey (Fqdn name) qtype) tGet), h, ans) /\
     cache (fst (fst (Query c h0 name qtype tGet tSet)))
       !! cacheKey (Fqdn name) qtype = None /\
     forall h' now',
       getFound (cacheGet (fst (fst (Query c h0 name qtype tGet tSet))) h'
                          (cacheKey (Fqdn name) qtype) now') = false).
Proof.
  intros Hd. rewrite (cacheSet_empty c h key ans now Hd).
  split; [done|]. split; [done|]. split.
  - intros Hk h' now'. by apply cacheGet_absent.
  - intros h0 name qtype tGet tSet cli H4 H6 Hmiss Hroute Hcli.
    rewrite (Query_no_static c h0 name qtype tGet tSet H4 H6). cbv zeta.
    destruct (cacheGet_miss_cache c h0 _ tGet Hmiss) as (_ & Hh & Hk).
    rewrite Hmiss, Hroute, Hh, Hcli, cacheSet_empty by done. simpl.
    split; [done|]. split; [done|].
    intros h' now'. by rewrite cacheGet_absent.
Qed.

(** Setting the [nil] slice on the empty client, then reading the key;
    and a query that the silent upstream answers with nothing. *)
Lemma cacheSet_empty_noop_witness :
  cacheGet (cacheSet emptyClient sampleHeap sampleKey nil_slice 0)
           sampleHeap sampleKey 0
  = mkGet emptyClient sampleHeap nil_slice false /\
  Query silentClient sampleHeap "www.example.com" TypeA 0 0
  = (silentClient, sampleHeap, nil_slice).
Proof.
  split.
  - destruct (cacheSet_empty_noop emptyClient sampleHeap sampleKey nil_slice 0)
      as (_ & _ & Hget & _); [reflexivity|].
    apply Hget. by_compute.
  - destruct (cacheSet_empty_noop silentClient sampleHeap sampleKey nil_slice 0)
      as (_ & _ & _ & Hquery); [reflexivity|].
    destruct (Hquery sampleHeap "www.example.com" TypeA 0 0 upstreamNone)
      as (Hq & _);
      [by intros _ | by intros [=] | by_compute | by_compute | by_compute |].
    rewrite Hq. by_compute.
Defined.

Lemma wrap64_seconds (m : Z) :
  - maxSeconds <= m <= maxSeconds -> wrap64 (m * Second) = m * Second.
Proof.
  intros Hm. apply wrap64_exact. unfold maxSeconds, Second in *. lia.
Qed.




(** C10, as the source has it: a non-empty answer list whose least
    [TTL] [m] is zero or negative, and not below -9223372036 seconds, is
    stored all the same, with an expiry [m] seconds from now, that is,
    at or before now. The entry is never served: a read of the key at
    any later instant evicts it and reports not-found. *)
Theorem cacheSet_nonpositive_ttl (c : DNSClient) (h : heap) (key : string)
    (ans : slice) (now : Time) (a0 : Answer) (rest : list Answer) :
  deref h ans = a0 :: rest ->
  - maxSeconds <= minTTL a0 rest <= 0 ->
  let m := minTTL a0 rest in
  let c' := cacheSet c h key ans now in
  cache c' !! key = Some (ptrCached (mkCached ans (now + m * Second))) /\
  now + m * Second <= now /\
  (forall h' t, now <= t ->
     getFound (cacheGet c' h' key t) = false /\
     getAnswer (cacheGet c' h' key t) = nil_slice /\
     getHeap (cacheGet c' h' key t) = h' /\
     cache (getClient (cacheGet c' h' key t)) !! key = None).
Proof.
  intros Hd Hm m c'. subst c'.
  rewrite (cacheSet_nonempty c h key ans now a0 rest Hd).
  fold m. rewrite (wrap64_seconds m) by (unfold maxSeconds in *; lia).
  unfold Add.
  split; [simpl; apply lookup_insert_eq|].
  split; [unfold Second; lia|].
  intros h' t Ht.
  set (e := mkCached ans (now + m * Second)).
  set (c' := withCache c _).
  assert (Hk : cache c' !! key = Some (ptrCached e))
    by (simpl; apply lookup_insert_eq).
  assert (Httl : ceilSeconds (Sub (expired e) t) <= 0).
  { apply ceilSeconds_nonpos, Sub_nonpos. simpl. unfold Second. lia. }
  rewrite (cacheGet_stale c' h' key e t Hk Httl). simpl.
  repeat split; try done. apply lookup_delete_eq.
Qed.

(** A single answer with a [TTL] of 0, read back at once. *)
Lemma cacheSet_nonpositive_ttl_witness :
  getFound (cacheGet (cacheSet emptyClient (singleHeap 0) sampleKey sampleSlice 7)
                     (singleHeap 0) sampleKey 7) = false.
Proof.
  destruct (cacheSet_nonpositive_ttl emptyClient (singleHeap 0) sampleKey
              sampleSlice 7 (mkAnswer "example.com." 1 0 "192.0.2.1") [])
    as (_ & _ & Hget);
    [reflexivity | vm_compute; split; discriminate |].
  destruct (Hget (singleHeap 0) 7) as (Hf & _); [reflexivity | exact Hf].
Defined.

(** C10 fails on a negative [TTL] whose nanoseconds overflow: the single
    answer of [TTL] -9223372037 set at instant 0 is stored with an
    expiry some 9223372036.7 seconds after 0, and the read that follows
    at once serves it, with a [TTL] of 9223372037. *)
Lemma cacheSet_nonpositive_ttl_overflow :
  cache (cacheSet emptyClient (singleHeap (-9223372037)) sampleKey sampleSlice 0)
    !! sampleKey
  = Some (ptrCached (mkCached sampleSlice 9223372036709551616)) /\
  getFound (cacheGet
              (cacheSet emptyClient (singleHeap (-9223372037)) sampleKey
                        sampleSlice 0)
              (singleHeap (-9223372037)) sampleKey 0) = true /\
  deref (getHeap (cacheGet
              (cacheSet emptyClient (singleHeap (-9223372037)) sampleKey
                        sampleSlice 0)
              (singleHeap (-9223372037)) sampleKey 0)) sampleSlice
  = [mkAnswer "example.com." 1 9223372037 "192.0.2.1"].
Proof. split; [|split]; vm_compute; done. Qed.

(** ** The cache key *)

Lemma Fqdn_keeps_name (name : string) :
  Fqdn name = name \/ Fqdn name = name +:+ ".".
Proof. unfold Fqdn. destruct (IsFqdn name); auto. Qed.

Lemma string_length_app (s t : string) :
  String.length (s +:+ t) = (String.length s + String.length t)%nat.
Proof. induction s as [|a s IH]; simpl; [done|]. by rewrite IH. Qed.

Lemma string_app_inv_tail (s1 s2 t : string) : s1 +:+ t = s2 +:+ t -> s1 = s2.
Proof.
  revert s2. induction s1 as [|a s1 IH]; intros [|b s2]; simpl; intros H.
  - done.
  - apply (f_equal String.length) in H.
    rewrite !string_length_app in H. simpl in H. lia.
  - apply (f_equal String.length) in H.
    rewrite !string_length_app in H. simpl in H. lia.
  - injection H as -> H. f_equal. by apply IH.
Qed.

(** C7, as the source has it: the cache key is the name made fully
    qualified by [Fqdn], a bar, and the record type in decimal. [Fqdn]
    keeps the bytes of the name and at most appends a dot; it folds no
    letters. Two queries of one record type use the same key exactly
    when their names are equal once fully qualified, and then they are
    the same query; two queries for one name use the same key exactly
    when their types are equal. *)
Theorem cacheKey_of_Fqdn (n1 n2 : string) (t1 t2 : Z) :
  cacheKey (Fqdn n1) t1 = Fqdn n1 +:+ "|" +:+ pretty t1 /\
  (Fqdn n1 = n1 \/ Fqdn n1 = n1 +:+ ".") /\
  (cacheKey (Fqdn n1) t1 = cacheKey (Fqdn n2) t1 <-> Fqdn n1 = Fqdn n2) /\
  (cacheKey (Fqdn n1) t1 = cacheKey (Fqdn n1) t2 <-> t1 = t2) /\
  (Fqdn n1 = Fqdn n2 ->
   forall c h tGet tSet,
     Query c h n1 t1 tGet tSet = Query c h n2 t1 tGet tSet).
Proof.
  split; [done|]. split; [apply Fqdn_keeps_name|].
  split; [|split].
  - split; [|by intros ->].
    unfold cacheKey. apply string_app_inv_tail.
  - split; [|by intros ->].
    unfold cacheKey. intros H.
    apply String.app_inj in H. apply String.app_inj in H.
    by apply pretty_Z_inj.
  - intros Heq c h tGet tSet. unfold Query. by rewrite Heq.
Qed.

(** C7 fails on names that differ in letter case: [Example.com] and
    [example.com] get different keys, and the entry cached for the one
    is not found by a query for the other. *)
Lemma cacheKey_case_sensitive :
  cacheKey (Fqdn "Example.com") TypeA = "Example.com.|1" /\
  cacheKey (Fqdn "example.com") TypeA = "example.com.|1" /\
  cacheKey (Fqdn "Example.com") TypeA <> cacheKey (Fqdn "example.com") TypeA /\
  snd (Query cachedClient sampleHeap "example.com" TypeA 0 0) = sampleSlice /\
  snd (Query cachedClient sampleHeap "Example.com" TypeA 0 0) = nil_slice.
Proof. repeat split; vm_compute; done. Qed.

(** ** The routing table *)









(** * Further properties of the cache and the dispatcher *)

(** ** Monotonicity of the remaining time *)

Lemma ceilSeconds_mono (d1 d2 : Duration) :
  d1 <= d2 -> ceilSeconds d1 <= ceilSeconds d2.
Proof.
  intros Hd. pose proof (ceilSeconds_bounds d1). pose proof (ceilSeconds_bounds d2).
  unfold Second in *. lia.
Qed.

Lemma Sub_anti (t u1 u2 : Time) : u1 <= u2 -> Sub t u2 <= Sub t u1.
Proof. unfold Sub, minDuration, maxDuration. lia. Qed.

Lemma deref_writeTTL_cases (h : heap) (s0 s : slice) (ttl : Z) :
  deref (writeTTL h s0 ttl) s = deref h s \/
  deref (writeTTL h s0 ttl) s = map (setTTL ttl) (deref h s).
Proof.
  destruct (decide (s0 = s)) as [->|Hne].
  - right. apply deref_writeTTL.
  - left. by apply deref_writeTTL_ne.
Qed.

Lemma dom_writeTTL (h : heap) (s : slice) (ttl : Z) :
  dom (writeTTL h s ttl) = dom h.
Proof. destruct s as [p|]; simpl; [apply dom_alter_L | done]. Qed.

(** The heap after a read is the heap before it, or that heap with the
    [TTL]s of one array rewritten. *)
Lemma cacheGet_heap (c : DNSClient) (h : heap) (key : string) (now : Time) :
  getHeap (cacheGet c h key now) = h \/
  exists s ttl, getHeap (cacheGet c h key now) = writeTTL h s ttl.
Proof.
  unfold cacheGet. destruct (cache c !! key) as [[e|]|]; simpl; auto.
  destruct (ceilSeconds (Sub (expired e) now) <=? 0); simpl; eauto.
Qed.

(** X1: a write of a non-empty answer list replaces whatever the key
    held, whether an entry, an expired entry or a foreign value: of two
    writes to one key only the second remains. A write leaves every
    other key, the routing table and both override tables as they
    were. *)
Theorem cacheSet_last_write_wins (c : DNSClient) (h1 h2 : heap) (key : string)
    (ans1 ans2 : slice) (t1 t2 : Time) :
  deref h2 ans2 <> [] ->
  cacheSet (cacheSet c h1 key ans1 t1) h2 key ans2 t2 = cacheSet c h2 key ans2 t2 /\
  (exists e, cache (cacheSet c h2 key ans2 t2) !! key = Some (ptrCached e) /\
             answer e = ans2) /\
  (forall key', key' <> key ->
     cache (cacheSet c h2 key ans2 t2) !! key' = cache c !! key') /\
  router (cacheSet c h2 key ans2 t2) = router c /\
  staticIpV4 (cacheSet c h2 key ans2 t2) = staticIpV4 c /\
  staticIpV6 (cacheSet c h2 key ans2 t2) = staticIpV6 c.
Proof.
  intros Hne. destruct (deref h2 ans2) as [|a0 rest] eqn:Hd; [done|].
  rewrite !(cacheSet_nonempty _ h2 key ans2 t2 a0 rest Hd).
  split; [|split; [|split]].
  - unfold cacheSet. destruct (deref h1 ans1); [done|].
    unfold withCache. simpl. by rewrite insert_insert_eq.
  - eexists. split; [simpl; apply lookup_insert_eq | done].
  - intros key' Hk. simpl. by apply lookup_insert_ne.
  - done.
Qed.

(** The sample answers written twice to one key, with different clocks:
    the entry is the one of the second write. *)
Lemma cacheSet_last_write_wins_witness :
  cache (cacheSet (cacheSet emptyClient sampleHeap sampleKey sampleSlice 0)
                  sampleHeap sampleKey sampleSlice 1000000000) !! sampleKey
  = Some (ptrCached (mkCached sampleSlice 6000000000)).
Proof.
  destruct (cacheSet_last_write_wins emptyClient sampleHeap sampleHeap sampleKey
              sampleSlice sampleSlice 0 1000000000) as (Heq & _); [done|].
  rewrite Heq. by_compute.
Defined.

(** X2: a read never adds or changes a cache entry. The cache after it
    is contained in the cache before it and agrees with it on every
    other key; a read that finds leaves the whole client as it was; a
    read that does not find leaves the key without an entry, the store
    untouched, and returns the [nil] slice. No read allocates, and none
    changes the routing table or the override tables. *)
Theorem cacheGet_frame (c : DNSClient) (h : heap) (key : string) (now : Time) :
  cache (getClient (cacheGet c h key now)) ⊆ cache c /\
  (forall key', key' <> key ->
     cache (getClient (cacheGet c h key now)) !! key' = cache c !! key') /\
  (getFound (cacheGet c h key now) = true -> getClient (cacheGet c h key now) = c) /\
  (getFound (cacheGet c h key now) = false ->
     cache (getClient (cacheGet c h key now)) = delete key (cache c) /\
     getHeap (cacheGet c h key now) = h /\
     getAnswer (cacheGet c h key now) = nil_slice) /\
  dom (getHeap (cacheGet c h key now)) = dom h /\
  router (getClient (cacheGet c h key now)) = router c /\
  staticIpV4 (getClient (cacheGet c h key now)) = staticIpV4 c /\
  staticIpV6 (getClient (cacheGet c h key now)) = staticIpV6 c.
Proof.
  unfold cacheGet. destruct (cache c !! key) as [[e|]|] eqn:Hk; simpl.
  - destruct (ceilSeconds (Sub (expired e) now) <=? 0); simpl.
    + repeat split; try done.
      * apply delete_subseteq.
      * intros key' Hne. by apply lookup_delete_ne.
    + repeat split; try done. apply dom_writeTTL.
  - repeat split; try done.
    + apply delete_subseteq.
    + intros key' Hne. by apply lookup_delete_ne.
  - repeat split; try done. by rewrite delete_id.
Qed.

(** X3: whatever a read writes to the store, it is a [TTL]. Through
    every slice, the answers after the read are as many as before, in
    the same order, with the same names, types and data. *)
Theorem cacheGet_keeps_records (c : DNSClient) (h : heap) (key : string)
    (now : Time) (s : slice) :
  length (deref (getHeap (cacheGet c h key now)) s) = length (deref h s) /\
  map Name (deref (getHeap (cacheGet c h key now)) s) = map Name (deref h s) /\
  map Type_ (deref (getHeap (cacheGet c h key now)) s) = map Type_ (deref h s) /\
  map Data (deref (getHeap (cacheGet c h key now)) s) = map Data (deref h s).
Proof.
  destruct (cacheGet_heap c h key now) as [->|(s0 & ttl & ->)]; [done|].
  destruct (deref_writeTTL_cases h s0 s ttl) as [->| ->]; [done|].
  rewrite length_map, !map_map. done.
Qed.

(** X4: the remaining time an entry reports never grows. Of two reads
    of an entry, the later one finds it only if the earlier one did,
    and no answer of the later read has a larger [TTL] than an answer
    of the earlier read. *)
Theorem cacheGet_ttl_decreases (c : DNSClient) (h1 h2 : heap) (key : string)
    (e : dnsCached) (t1 t2 : Time) :
  cache c !! key = Some (ptrCached e) ->
  t1 <= t2 ->
  getFound (cacheGet c h2 key t2) = true ->
  getFound (cacheGet c h1 key t1) = true /\
  forall a1 a2,
    a1 ∈ deref (getHeap (cacheGet c h1 key t1)) (getAnswer (cacheGet c h1 key t1)) ->
    a2 ∈ deref (getHeap (cacheGet c h2 key t2)) (getAnswer (cacheGet c h2 key t2)) ->
    0 < TTL a2 <= TTL a1.
Proof.
  intros Hk Ht Hfound.
  pose proof (ceilSeconds_mono _ _ (Sub_anti (expired e) t1 t2 Ht)) as Hmono.
  destruct (Z.le_gt_cases (ceilSeconds (Sub (expired e) t2)) 0) as [Hle|Hpos].
  { rewrite (cacheGet_stale c h2 key e t2 Hk Hle) in Hfound. done. }
  rewrite (cacheGet_live c h1 key e t1 Hk) by lia.
  rewrite (cacheGet_live c h2 key e t2 Hk) by lia.
  simpl. split; [done|]. rewrite !deref_writeTTL.
  intros a1 a2 (b1 & -> & _)%list_elem_of_fmap (b2 & -> & _)%list_elem_of_fmap.
  simpl. lia.
Qed.

(** The sample entry read at 1 second and at 3 seconds: 4 after 2. *)
Lemma cacheGet_ttl_decreases_witness :
  0 < TTL (setTTL 2 ans5) <= TTL (setTTL 4 ans5).
Proof.
  assert (Hk : cache cachedClient !! sampleKey = Some (ptrCached sampleEntry))
    by by_compute.
  destruct (cacheGet_ttl_decreases cachedClient sampleHeap sampleHeap sampleKey
              sampleEntry 1000000000 3000000000 Hk) as (_ & Hle);
    [done | by_compute |].
  apply Hle; vm_compute; apply elem_of_cons; by left.
Defined.

(** X5: an entry written with a positive least [TTL] of [m] seconds (at
    most 9223372036) lives exactly [m] seconds: a read at an instant
    [t] not before the write finds it if and only if [t] is less than
    [m] seconds after the write, and then every answer reports a [TTL]
    between 1 and [m]. *)
Theorem cacheSet_lifetime (c : DNSClient) (h h' : heap) (key : string)
    (ans : slice) (now t : Time) (a0 : Answer) (rest : list Answer) :
  deref h ans = a0 :: rest ->
  0 < minTTL a0 rest <= maxSeconds ->
  now <= t ->
  (getFound (cacheGet (cacheSet c h key ans now) h' key t) = true <->
   t < now + minTTL a0 rest * Second) /\
  (getFound (cacheGet (cacheSet c h key ans now) h' key t) = true ->
   getAnswer (cacheGet (cacheSet c h key ans now) h' key t) = ans /\
   Forall (fun a => 1 <= TTL a <= minTTL a0 rest)
          (deref (getHeap (cacheGet (cacheSet c h key ans now) h' key t)) ans)).
Proof.
  intros Hd Hm Ht.
  rewrite (cacheSet_nonempty c h key ans now a0 rest Hd).
  rewrite (wrap64_seconds (minTTL a0 rest)) by (unfold maxSeconds in *; lia).
  unfold Add. set (m := minTTL a0 rest) in *.
  set (e := mkCached ans (now + m * Second)).
  set (c' := withCache c _).
  assert (Hk : cache c' !! key = Some (ptrCached e))
    by (simpl; apply lookup_insert_eq).
  destruct (Z.le_gt_cases (now + m * Second) t) as [Hold|Hyoung].
  - assert (Httl : ceilSeconds (Sub (expired e) t) <= 0)
      by (by apply ceilSeconds_nonpos, Sub_nonpos).
    rewrite (cacheGet_stale c' h' key e t Hk Httl). simpl.
    split; [split; [done | lia] | done].
  - assert (Hsub : Sub (expired e) t = now + m * Second - t).
    { apply Sub_exact. simpl.
      unfold minDuration, maxDuration, maxSeconds, Second in *. lia. }
    assert (Httl : 1 <= ceilSeconds (Sub (expired e) t) <= m).
    { pose proof (ceilSeconds_bounds (Sub (expired e) t)) as Hb.
      rewrite Hsub in *. unfold Second in *. lia. }
    rewrite (cacheGet_live c' h' key e t Hk) by lia. simpl.
    split; [done|]. intros _. split; [done|].
    rewrite deref_writeTTL. apply Forall_fmap, Forall_true. intros a. simpl.
    unfold e in Httl. simpl in Httl. lia.
Qed.

(** The sample answers, least [TTL] 5, written at instant 0 and read
    4.999999999 seconds later: still found. *)
Lemma cacheSet_lifetime_witness :
  getFound (cacheGet (cacheSet emptyClient sampleHeap sampleKey sampleSlice 0)
                     sampleHeap sampleKey 4999999999) = true.
Proof.
  destruct (cacheSet_lifetime emptyClient sampleHeap sampleHeap sampleKey
              sampleSlice 0 4999999999 ans5 [ans30]) as (Hiff & _);
    [done | split; [by_compute | vm_compute; discriminate] | lia |].
  apply Hiff. by_compute.
Defined.

(** ** The dispatcher over several queries *)

(** Whatever it is given, [cacheSet] writes at most the entry of its
    key. *)
Lemma cacheSet_frame (c : DNSClient) (h : heap) (key : string) (ans : slice)
    (now : Time) :
  router (cacheSet c h key ans now) = router c /\
  staticIpV4 (cacheSet c h key ans now) = staticIpV4 c /\
  staticIpV6 (cacheSet c h key ans now) = staticIpV6 c /\
  forall key', key' <> key ->
    cache (cacheSet c h key ans now) !! key' = cache c !! key'.
Proof.
  unfold cacheSet. destruct (deref h ans); simpl; [done|].
  repeat split. intros key' Hne. by apply lookup_insert_ne.
Qed.



(** X7: a query writes nothing but the cache entry of its own key. The
    routing table and the override tables after a query are those
    before it, and so is the cache entry of every other key, whichever
    path the query takes and whatever the upstream returns. *)
Theorem Query_frame (c : DNSClient) (h : heap) (name : string) (qtype : Z)
    (tGet tSet : Time) :
  router (fst (fst (Query c h name qtype tGet tSet))) = router c /\
  staticIpV4 (fst (fst (Query c h name qtype tGet tSet))) = staticIpV4 c /\
  staticIpV6 (fst (fst (Query c h name qtype tGet tSet))) = staticIpV6 c /\
  forall key', key' <> cacheKey (Fqdn name) qtype ->
    cache (fst (fst (Query c h name qtype tGet tSet))) !! key' = cache c !! key'.
Proof.
  set (key := cacheKey (Fqdn name) qtype).
  assert (Hres :
    let r := cacheGet c h key tGet in
    let q := if getFound r then (getClient r, getHeap r, getAnswer r)
             else match route (router c) (Fqdn name) with
                  | None => (getClient r, getHeap r, nil_slice)
                  | Some cli =>
                      let '(h', ans) := cli (getHeap r) (Fqdn name) qtype in
                      (cacheSet (getClient r) h' key ans tSet, h', ans)
                  end in
    router (fst (fst q)) = router c /\
    staticIpV4 (fst (fst q)) = staticIpV4 c /\
    staticIpV6 (fst (fst q)) = staticIpV6 c /\
    forall key', key' <> key -> cache (fst (fst q)) !! key' = cache c !! key').
  { intros r q. subst q.
    destruct (cacheGet_config c h key tGet) as (Hr & H4 & H6).
    assert (Hother : forall key', key' <> key ->
              cache (getClient r) !! key' = cache c !! key').
    { intros key' Hne. subst r. unfold cacheGet.
      destruct (cache c !! key) as [[e|]|]; simpl; try done.
      - destruct (ceilSeconds (Sub (expired e) tGet) <=? 0); simpl; [|done].
        by apply lookup_delete_ne.
      - by apply lookup_delete_ne. }
    fold r in Hr, H4, H6.
    destruct (getFound r); [done|].
    destruct (route (router c) (Fqdn name)) as [cli|]; [|done].
    destruct (cli (getHeap r) (Fqdn name) qtype) as [h' ans]. cbn [fst].
    destruct (cacheSet_frame (getClient r) h' key ans tSet)
      as (-> & -> & -> & Hset).
    repeat split; try done.
    intros key' Hne. rewrite Hset by done. by apply Hother. }
  cbv zeta in Hres.
  destruct (decide (qtype = TypeA)) as [HA|HA].
  - destruct (staticIpV4 c !! Fqdn name) as [ip|] eqn:Hs.
    + by rewrite (Query_staticIpV4 c h name qtype tGet tSet ip HA Hs).
    + rewrite Query_no_static; [exact Hres | done |].
      intros HAAAA. rewrite HA in HAAAA. discriminate.
  - destruct (decide (qtype = TypeAAAA)) as [HAAAA|HAAAA].
    + destruct (staticIpV6 c !! Fqdn name) as [ip|] eqn:Hs.
      * by rewrite (Query_staticIpV6 c h name qtype tGet tSet ip HAAAA Hs).
      * rewrite Query_no_static; [exact Hres | done | done].
    + rewrite Query_no_static; [exact Hres | done | done].
Qed.

(** X8: every answer from an override table is a new array. Two
    queries answered by an override return different slices, each
    holding the synthesized answer, and a write through the second
    slice does not show through the first. *)
Theorem Query_static_not_shared (c : DNSClient) (h : heap) (name : string)
    (qtype : Z) (t1 t2 t3 t4 : Time) (ip : string) :
  (qtype = TypeA /\ staticIpV4 c !! Fqdn name = Some ip) \/
  (qtype = TypeAAAA /\ staticIpV6 c !! Fqdn name = Some ip) ->
  let q1 := Query c h name qtype t1 t2 in
  let q2 := Query (fst (fst q1)) (snd (fst q1)) name qtype t3 t4 in
  snd q1 <> snd q2 /\
  deref (snd (fst q2)) (snd q1) = [mkAnswer (Fqdn name) qtype 60 ip] /\
  deref (snd (fst q2)) (snd q2) = [mkAnswer (Fqdn name) qtype 60 ip] /\
  forall ttl,
    deref (writeTTL (snd (fst q2)) (snd q2) ttl) (snd q1)
    = [mkAnswer (Fqdn name) qtype 60 ip].
Proof.
  intros Hov q1 q2.
  assert (Hstatic : forall h' ta tb,
            Query c h' name qtype ta tb =
              (c, <[fresh (dom h') := [mkAnswer (Fqdn name) qtype 60 ip]]> h',
               Some (fresh (dom h')))).
  { intros h' ta tb. destruct Hov as [[HA Hs]|[HA Hs]];
      [by apply Query_staticIpV4 | by apply Query_staticIpV6]. }
  subst q2 q1. rewrite (Hstatic h). cbn [fst snd]. rewrite Hstatic. cbn [fst snd].
  set (p1 := fresh (dom h)).
  set (h1 := <[p1 := _]> h).
  set (p2 := fresh (dom h1)).
  assert (Hne : p1 <> p2).
  { intros Heq. apply (is_fresh (dom h1)). fold p2. rewrite <- Heq.
    apply elem_of_dom. unfold h1. by rewrite lookup_insert_eq. }
  assert (Hd1 : deref (<[p2 := [mkAnswer (Fqdn name) qtype 60 ip]]> h1) (Some p1)
                = [mkAnswer (Fqdn name) qtype 60 ip]).
  { simpl. rewrite lookup_insert_ne by done. unfold h1.
    by rewrite lookup_insert_eq. }
  split; [congruence|]. split; [done|]. split.
  - simpl. by rewrite lookup_insert_eq.
  - intros ttl. rewrite deref_writeTTL_ne; [done | congruence].
Qed.

(** Two A queries for [example.com], which has an IPv4 override. *)
Lemma Query_static_not_shared_witness :
  snd (Query routedClient ∅ "example.com" TypeA 0 0) <>
  snd (Query (fst (fst (Query routedClient ∅ "example.com" TypeA 0 0)))
             (snd (fst (Query routedClient ∅ "example.com" TypeA 0 0)))
             "example.com" TypeA 0 0).
Proof.
  apply (Query_static_not_shared routedClient ∅ "example.com" TypeA 0 0 0 0
           "10.0.0.1").
  left. split; by_compute.
Defined.

(** ** Cache keys of different queries *)

Lemma hasBar_app_bar (s t : string) : hasBar (s +:+ String "|" t) = true.
Proof.
  induction s as [|a s IH]; simpl; [done|].
  by destruct (Ascii.eqb a "|"%char).
Qed.

Lemma hasBar_pretty_N_go (x : N) (s : string) :
  hasBar s = false -> hasBar (pretty_N_go x s) = false.
Proof.
  revert s. induction (N.lt_wf_0 x) as [x _ IH]; intros s Hs.
  assert (x = 0 \/ 0 < x)%N as [->|Hpos] by lia.
  - by rewrite pretty_N_go_0.
  - rewrite pretty_N_go_step by done. apply IH.
    + by apply N.div_lt.
    + simpl. rewrite Hs. unfold pretty_N_char. by repeat case_match.
Qed.

(** The decimal form of a number has no [|]. *)
Lemma hasBar_pretty_Z (t : Z) : hasBar (pretty t) = false.
Proof.
  unfold pretty, pretty_Z, pretty, pretty_positive, pretty, pretty_N.
  destruct t as [|x|x]; simpl; try done.
  - by apply hasBar_pretty_N_go.
  - by apply hasBar_pretty_N_go.
Qed.

(** A string is split in one way only at its last [|]. *)
Lemma split_at_last_bar (n1 n2 d1 d2 : string) :
  hasBar d1 = false -> hasBar d2 = false ->
  n1 +:+ String "|" d1 = n2 +:+ String "|" d2 -> n1 = n2 /\ d1 = d2.
Proof.
  intros H1 H2. revert n2.
  induction n1 as [|a n1 IH]; intros [|b n2] Heq; simpl in Heq.
  - by injection Heq as ->.
  - injection Heq as <- ->. by rewrite hasBar_app_bar in H1.
  - injection Heq as -> <-. by rewrite hasBar_app_bar in H2.
  - injection Heq as -> Heq. destruct (IH _ Heq) as [-> ->]. done.
Qed.

(** X9: the cache key determines the query. Two keys are equal only if
    both the names and the record types they were built from are
    equal, also when a name itself contains the separator [|]; so no
    two different queries share a cache entry. *)
Theorem cacheKey_inj (n1 n2 : string) (t1 t2 : Z) :
  cacheKey n1 t1 = cacheKey n2 t2 <-> n1 = n2 /\ t1 = t2.
Proof.
  split; [|by intros [-> ->]].
  unfold cacheKey. intros Heq.
  change (n1 +:+ String "|" (pretty t1) = n2 +:+ String "|" (pretty t2)) in Heq.
  apply split_at_last_bar in Heq as [-> Ht]; try apply hasBar_pretty_Z.
  split; [done|]. by apply pretty_Z_inj.
Qed.

(** * Initialization *)

Lemma fold_setStaticIpV4 (host : string) (ds : list string) (c : DNSClient) :
  cache (fold_left (setStaticIpV4 host) ds c) = cache c /\
  router (fold_left (setStaticIpV4 host) ds c) = router c /\
  staticIpV6 (fold_left (setStaticIpV4 host) ds c) = staticIpV6 c /\
  forall k, staticIpV4 (fold_left (setStaticIpV4 host) ds c) !! k =
            if decide (k ∈ Fqdn <$> ds) then Some host else staticIpV4 c !! k.
Proof.
  revert c. induction ds as [|d ds IH]; intros c; simpl.
  - do 3 (split; [done|]). intros k.
    first [done | case_decide as Hin; [by apply elem_of_nil in Hin | done]].
  - destruct (IH (setStaticIpV4 host c d)) as (-> & -> & -> & Hk).
    do 3 (split; [done|]). intros k. rewrite Hk. simpl.
    destruct (decide (k = Fqdn d)) as [->|Hne].
    + rewrite lookup_insert_eq, (decide_True (P := _ ∈ _ :: _));
        [by case_decide | apply elem_of_cons; by left].
    + rewrite lookup_insert_ne by done.
      destruct (decide (k ∈ Fqdn <$> ds)) as [Hin|Hnin].
      * rewrite decide_True; [done | by apply elem_of_cons; right].
      * rewrite decide_False; [done|]. by intros [?|?]%elem_of_cons.
Qed.

Lemma fold_setStaticIpV6 (host : string) (ds : list string) (c : DNSClient) :
  cache (fold_left (setStaticIpV6 host) ds c) = cache c /\
  router (fold_left (setStaticIpV6 host) ds c) = router c /\
  staticIpV4 (fold_left (setStaticIpV6 host) ds c) = staticIpV4 c /\
  forall k, staticIpV6 (fold_left (setStaticIpV6 host) ds c) !! k =
            if decide (k ∈ Fqdn <$> ds) then Some host else staticIpV6 c !! k.
Proof.
  revert c. induction ds as [|d ds IH]; intros c; simpl.
  - do 3 (split; [done|]). intros k.
    first [done | case_decide as Hin; [by apply elem_of_nil in Hin | done]].
  - destruct (IH (setStaticIpV6 host c d)) as (-> & -> & -> & Hk).
    do 3 (split; [done|]). intros k. rewrite Hk. simpl.
    destruct (decide (k = Fqdn d)) as [->|Hne].
    + rewrite lookup_insert_eq, (decide_True (P := _ ∈ _ :: _));
        [by case_decide | apply elem_of_cons; by left].
    + rewrite lookup_insert_ne by done.
      destruct (decide (k ∈ Fqdn <$> ds)) as [Hin|Hnin].
      * rewrite decide_True; [done | by apply elem_of_cons; right].
      * rewrite decide_False; [done|]. by intros [?|?]%elem_of_cons.
Qed.

Lemma fold_addRoute (cli : dnsClient) (ds : list string) (c : DNSClient) :
  cache (fold_left (addRoute cli) ds c) = cache c /\
  staticIpV4 (fold_left (addRoute cli) ds c) = staticIpV4 c /\
  staticIpV6 (fold_left (addRoute cli) ds c) = staticIpV6 c.
Proof.
  revert c. induction ds as [|d ds IH]; intros c; simpl; [done|].
  by destruct (IH (addRoute cli c d)) as (-> & -> & ->).
Qed.

Section Init_properties.

Context {URL Proxy : Type}.
Context (url_Parse : string -> option URL).
Context (Scheme Host : URL -> string).
Context (setScheme : URL -> string -> URL).
Context (URL_String : URL -> string).
Context (GetUDPClient : string -> dnsClient).
Context (GetDoHClient : string -> Proxy -> dnsClient).

Local Abbreviation init :=
  (Init url_Parse Scheme Host setScheme URL_String GetUDPClient GetDoHClient).
Local Abbreviation forward1 :=
  (initForward Scheme Host setScheme URL_String GetUDPClient GetDoHClient).
Local Abbreviation parses := (fun g : Server Proxy => is_Some (url_Parse (DNS g))).

(** The effect of one forward on each field of the client. *)
Lemma initForward_fields (c : DNSClient) (f : Server Proxy) (u : URL) :
  cache (forward1 c f u) = cache c /\
  (forall k, staticIpV4 (forward1 c f u) !! k =
     if decide (Scheme u = "ipv4" /\ k ∈ Fqdn <$> Domain f)
     then Some (Host u) else staticIpV4 c !! k) /\
  (forall k, staticIpV6 (forward1 c f u) !! k =
     if decide (Scheme u = "ipv6" /\ k ∈ Fqdn <$> Domain f)
     then Some (Host u) else staticIpV6 c !! k) /\
  (Scheme u <> "udp" -> Scheme u <> "doh" -> router (forward1 c f u) = router c) /\
  (Scheme u ∉ ["ipv4"; "ipv6"; "udp"; "doh"] -> forward1 c f u = c).
Proof.
  unfold initForward.
  destruct (String.eqb_spec (Scheme u) "ipv4") as [H4|H4].
  { destruct (fold_setStaticIpV4 (Host u) (Domain f) c) as (-> & -> & -> & Hk).
    split; [done|]. split; [|split; [|split]].
    - intros k. rewrite Hk.
      destruct (decide (k ∈ Fqdn <$> Domain f)) as [Hin|Hnin];
        [by rewrite decide_True | rewrite decide_False; [done | by intros [_ ?]]].
    - intros k. rewrite decide_False; [done|]. rewrite H4. by intros [[=] _].
    - done.
    - intros Hnot. exfalso. apply Hnot. rewrite H4. apply elem_of_cons. by left. }
  destruct (String.eqb_spec (Scheme u) "ipv6") as [H6|H6].
  { destruct (fold_setStaticIpV6 (Host u) (Domain f) c) as (-> & -> & -> & Hk).
    split; [done|]. split; [|split; [|split]].
    - intros k. rewrite decide_False; [done|]. by intros [? _].
    - intros k. rewrite Hk.
      destruct (decide (k ∈ Fqdn <$> Domain f)) as [Hin|Hnin];
        [by rewrite decide_True | rewrite decide_False; [done | by intros [_ ?]]].
    - done.
    - intros Hnot. exfalso. apply Hnot. rewrite H6.
      apply elem_of_cons. right. apply elem_of_cons. by left. }
  assert (Hs4 : forall k,
            (if decide (Scheme u = "ipv4" /\ k ∈ Fqdn <$> Domain f)
             then Some (Host u) else staticIpV4 c !! k) = staticIpV4 c !! k).
  { intros k. rewrite decide_False; [done|]. by intros [? _]. }
  assert (Hs6 : forall k,
            (if decide (Scheme u = "ipv6" /\ k ∈ Fqdn <$> Domain f)
             then Some (Host u) else staticIpV6 c !! k) = staticIpV6 c !! k).
  { intros k. rewrite decide_False; [done|]. by intros [? _]. }
  destruct (String.eqb_spec (Scheme u) "udp") as [Hu|Hu].
  { destruct (fold_addRoute (GetUDPClient (Host u)) (Domain f) c) as (-> & -> & ->).
    split; [done|]. split; [done|]. split; [done|]. split; [done|].
    intros Hnot. exfalso. apply Hnot. rewrite Hu.
    do 2 (apply elem_of_cons; right). apply elem_of_cons. by left. }
  destruct (String.eqb_spec (Scheme u) "doh") as [Hd|Hd].
  { destruct (fold_addRoute
                (GetDoHClient (URL_String (setScheme u "https")) (HttpsProxy f))
                (Domain f) c) as (-> & -> & ->).
    split; [done|]. split; [done|]. split; [done|]. split; [done|].
    intros Hnot. exfalso. apply Hnot. rewrite Hd.
    do 3 (apply elem_of_cons; right). apply elem_of_cons. by left. }
  by destruct (String.eqb (Scheme u) "tcp" || String.eqb (Scheme u) "dot").
Qed.

(** [Init] over a list in two parts is [Init] over the first part and
    then, unless that panicked, over the second. *)
Lemma Init_app (c : DNSClient) (fs1 fs2 : list (Server Proxy)) :
  init c (fs1 ++ fs2) =
    match init c fs1 with
    | initReturns c1 => init c1 fs2
    | initPanics c1 => initPanics c1
    end.
Proof.
  revert c. induction fs1 as [|f fs1 IH]; intros c; simpl; [done|].
  destruct (url_Parse (DNS f)); [apply IH | done].
Qed.



(** X11: a forward whose scheme is none of [ipv4], [ipv6], [udp] and
    [doh] (so also [tcp] and [dot]) is skipped: if its [DNS] string
    parses, [Init] ends as it would without that forward. *)
Theorem Init_skips_unsupported (c : DNSClient) (fs1 fs2 : list (Server Proxy))
    (f : Server Proxy) (u : URL) :
  url_Parse (DNS f) = Some u ->
  Scheme u ∉ ["ipv4"; "ipv6"; "udp"; "doh"] ->
  init c (fs1 ++ f :: fs2) = init c (fs1 ++ fs2).
Proof.
  intros Hu Hscheme. rewrite !Init_app.
  destruct (init c fs1) as [c1|c1]; [|done]. simpl. rewrite Hu.
  by destruct (initForward_fields c1 f u) as (_ & _ & _ & _ & ->).
Qed.

(** Later forwards that do not name a domain under a scheme leave the
    override of that domain as it is. *)
Lemma Init_static_kept (c c' : DNSClient) (fs : list (Server Proxy)) (k : string) :
  init c fs = initReturns c' ->
  (Forall (fun g => forall v, url_Parse (DNS g) = Some v -> Scheme v = "ipv4" ->
                              k ∉ Fqdn <$> Domain g) fs ->
   staticIpV4 c' !! k = staticIpV4 c !! k) /\
  (Forall (fun g => forall v, url_Parse (DNS g) = Some v -> Scheme v = "ipv6" ->
                              k ∉ Fqdn <$> Domain g) fs ->
   staticIpV6 c' !! k = staticIpV6 c !! k).
Proof.
  revert c. induction fs as [|f fs IH]; intros c; simpl.
  - by intros [= ->].
  - destruct (url_Parse (DNS f)) as [u|] eqn:Hu; [|done].
    intros Hinit. destruct (IH _ Hinit) as [IH4 IH6].
    destruct (initForward_fields c f u) as (_ & H4 & H6 & _).
    split; intros [Hf Hfs]%Forall_cons.
    + rewrite (IH4 Hfs), H4. rewrite decide_False; [done|].
      intros [Hs Hin]. by apply (Hf u).
    + rewrite (IH6 Hfs), H6. rewrite decide_False; [done|].
      intros [Hs Hin]. by apply (Hf u).
Qed.

(** X12: an override set up by [Init] is what [Query] answers with. If
    a forward with scheme [ipv4] (or [ipv6]) lists a domain, and no
    later forward of the same scheme lists it again, then after [Init]
    an A (or AAAA) query for that domain returns the one synthesized
    answer with the host of the forward's URL, whatever the cache and
    the routing table hold. *)
Theorem Init_static_then_Query (c c' : DNSClient) (fs1 fs2 : list (Server Proxy))
    (f : Server Proxy) (u : URL) (d : string) (qtype : Z)
    (h : heap) (t1 t2 : Time) :
  init c (fs1 ++ f :: fs2) = initReturns c' ->
  url_Parse (DNS f) = Some u ->
  (Scheme u = "ipv4" /\ qtype = TypeA) \/ (Scheme u = "ipv6" /\ qtype = TypeAAAA) ->
  d ∈ Domain f ->
  Forall (fun g => forall v, url_Parse (DNS g) = Some v -> Scheme v = Scheme u ->
                             Fqdn d ∉ Fqdn <$> Domain g) fs2 ->
  Query c' h d qtype t1 t2 =
    (c', <[fresh (dom h) := [mkAnswer (Fqdn d) qtype 60 (Host u)]]> h,
     Some (fresh (dom h))).
Proof.
  intros Hinit Hu Hfam Hd Hlater.
  rewrite Init_app in Hinit.
  destruct (init c fs1) as [c1|c1]; [|done]. simpl in Hinit. rewrite Hu in Hinit.
  destruct (Init_static_kept _ _ _ (Fqdn d) Hinit) as [Hk4 Hk6].
  destruct (initForward_fields c1 f u) as (_ & H4 & H6 & _).
  assert (Hin : Fqdn d ∈ Fqdn <$> Domain f) by (by apply list_elem_of_fmap_2).
  destruct Hfam as [[Hs ->]|[Hs ->]].
  - apply Query_staticIpV4; [done|].
    rewrite Hk4, H4; [by rewrite decide_True|].
    eapply Forall_impl; [exact Hlater|]. simpl. intros g Hg v Hv Hsv.
    apply (Hg v Hv). by rewrite Hs.
  - apply Query_staticIpV6; [done|].
    rewrite Hk6, H6; [by rewrite decide_True|].
    eapply Forall_impl; [exact Hlater|]. simpl. intros g Hg v Hv Hsv.
    apply (Hg v Hv). by rewrite Hs.
Qed.

Lemma dom_lookup_mono (m1 m2 : gmap string string) :
  (forall k, is_Some (m1 !! k) -> is_Some (m2 !! k)) -> dom m1 ⊆ dom m2.
Proof. intros Hm k. rewrite !elem_of_dom. apply Hm. Qed.

(** X13: [Init] only adds to the client. However it ends, the cache is
    the one it started with, no domain has lost its IPv4 or IPv6
    override, and when no forward has the scheme [udp] or [doh] the
    routing table is the one it started with. *)
Theorem Init_only_adds (c : DNSClient) (fs : list (Server Proxy)) :
  cache (clientOf (init c fs)) = cache c /\
  dom (staticIpV4 c) ⊆ dom (staticIpV4 (clientOf (init c fs))) /\
  dom (staticIpV6 c) ⊆ dom (staticIpV6 (clientOf (init c fs))) /\
  (Forall (fun g => forall v, url_Parse (DNS g) = Some v ->
                              Scheme v <> "udp" /\ Scheme v <> "doh") fs ->
   router (clientOf (init c fs)) = router c).
Proof.
  revert c. induction fs as [|f fs IH]; intros c; simpl; [done|].
  destruct (url_Parse (DNS f)) as [u|] eqn:Hu; [|done].
  destruct (IH (forward1 c f u)) as (-> & IH4 & IH6 & IHr).
  destruct (initForward_fields c f u) as (-> & H4 & H6 & Hr & _).
  split; [done|]. split; [|split].
  - etrans; [|exact IH4]. apply dom_lookup_mono. intros k Hk.
    rewrite H4.
    destruct (decide (Scheme u = "ipv4" /\ k ∈ Fqdn <$> Domain f));
      [by eexists | done].
  - etrans; [|exact IH6]. apply dom_lookup_mono. intros k Hk.
    rewrite H6.
    destruct (decide (Scheme u = "ipv6" /\ k ∈ Fqdn <$> Domain f));
      [by eexists | done].
  - intros [Hf Hfs]%Forall_cons. rewrite (IHr Hfs).
    destruct (Hf u Hu) as [? ?]. by apply Hr.
Qed.

End Init_properties.


(** The sample forwards with and without the [tcp] one. *)
Lemma Init_skips_unsupported_witness :
  sampleInit emptyClient sampleForwards
  = sampleInit emptyClient
      [ mkServer "ipv4://10.0.0.1" ["example.com"; "example.org."] tt;
        mkServer "udp://8.8.8.8" ["example.com"] tt ].
Proof.
  apply (Init_skips_unsupported sampleParse fst snd
           (fun u scheme => (scheme, snd u))
           (fun u => fst u +:+ "://" +:+ snd u)
           (fun host => upstream host 300) (fun url _ => upstream url 300)
           emptyClient
           [mkServer "ipv4://10.0.0.1" ["example.com"; "example.org."] tt]
           [mkServer "udp://8.8.8.8" ["example.com"] tt]
           (mkServer "tcp://1.1.1.1" ["example.net"] tt) ("tcp", "1.1.1.1")).
  - by_compute.
  - simpl. intros Hin.
    repeat (apply elem_of_cons in Hin as [Hin|Hin]; [discriminate|]).
    by apply elem_of_nil in Hin.
Defined.

(** After the sample forwards, an A query for [example.org] is answered
    with the address of the [ipv4] forward. *)
Lemma Init_static_then_Query_witness :
  Query (clientOf (sampleInit emptyClient sampleForwards)) ∅ "example.org." TypeA 0 0
  = (clientOf (sampleInit emptyClient sampleForwards),
     {[ 1%positive := [mkAnswer "example.org." 1 60 "10.0.0.1"] ]},
     Some 1%positive).
Proof.
  rewrite (Init_static_then_Query sampleParse fst snd
             (fun u scheme => (scheme, snd u))
             (fun u => fst u +:+ "://" +:+ snd u)
             (fun host => upstream host 300) (fun url _ => upstream url 300)
             emptyClient (clientOf (sampleInit emptyClient sampleForwards))
             []
             [mkServer "tcp://1.1.1.1" ["example.net"] tt;
              mkServer "udp://8.8.8.8" ["example.com"] tt]
             (mkServer "ipv4://10.0.0.1" ["example.com"; "example.org."] tt)
             ("ipv4", "10.0.0.1") "example.org." TypeA ∅ 0 0).
  - by_compute.
  - by_compute.
  - by_compute.
  - by left.
  - apply elem_of_cons. right. apply elem_of_cons. by left.
  - repeat constructor; intros v [= <-]; discriminate.
Defined.

(** * The dispatcher after an entry has expired *)

(** X14: once the entry a query stored has expired, the next query for
    the name goes to the upstream again. With the least [TTL] of the
    stored answers [m] seconds (between 1 and 9223372036), a second
    query [m] seconds or more after the write finds the entry stale,
    drops it without touching the answers it refers to, invokes the
    upstream on the store as it is, and hands the new result to
    [cacheSet]. *)
Theorem Query_after_expiry (c : DNSClient) (h h1 h2 : heap) (name : string)
    (qtype : Z) (tGet tSet t3 t4 : Time) (cli : dnsClient) (ans ans2 : slice)
    (a0 : Answer) (rest : list Answer) :
  (qtype = TypeA -> staticIpV4 c !! Fqdn name = None) ->
  (qtype = TypeAAAA -> staticIpV6 c !! Fqdn name = None) ->
  getFound (cacheGet c h (cacheKey (Fqdn name) qtype) tGet) = false ->
  route (router c) (Fqdn name) = Some cli ->
  cli h (Fqdn name) qtype = (h1, ans) ->
  deref h1 ans = a0 :: rest ->
  0 < minTTL a0 rest <= maxSeconds ->
  tSet + minTTL a0 rest * Second <= t3 ->
  cli h1 (Fqdn name) qtype = (h2, ans2) ->
  let c1 := fst (fst (Query c h name qtype tGet tSet)) in
  let dropped := withCache c1 (delete (cacheKey (Fqdn name) qtype) (cache c1)) in
  Query c1 h1 name qtype t3 t4 =
    (cacheSet dropped h2 (cacheKey (Fqdn name) qtype) ans2 t4, h2, ans2).
Proof.
  intros H4 H6 Hmiss Hroute Hcli Hd Hm Ht Hcli2 c1 dropped. subst dropped c1.
  set (key := cacheKey (Fqdn name) qtype) in *.
  set (r := cacheGet c h key tGet) in *.
  destruct (cacheGet_miss_cache c h key tGet Hmiss) as (_ & Hh & _).
  destruct (cacheGet_config c h key tGet) as (Hr & Hs4 & Hs6).
  fold r in Hh, Hr, Hs4, Hs6.
  set (m := minTTL a0 rest) in *.
  set (e := mkCached ans (tSet + m * Second)).
  set (c' := withCache (getClient r) (<[key := ptrCached e]> (cache (getClient r)))).
  assert (Hq1 : Query c h name qtype tGet tSet = (c', h1, ans)).
  { rewrite (Query_no_static c h name qtype tGet tSet H4 H6). cbv zeta.
    fold key r. rewrite Hmiss, Hroute, Hh, Hcli.
    rewrite (cacheSet_nonempty _ h1 key ans tSet a0 rest Hd). fold m.
    rewrite (wrap64_seconds m) by (unfold maxSeconds in *; lia). done. }
  rewrite Hq1. cbn [fst].
  assert (Hk : cache c' !! key = Some (ptrCached e))
    by (simpl; apply lookup_insert_eq).
  assert (Httl : ceilSeconds (Sub (expired e) t3) <= 0)
    by (by apply ceilSeconds_nonpos, Sub_nonpos).
  rewrite (Query_no_static c' h1 name qtype t3 t4).
  - cbv zeta. fold key.
    rewrite (cacheGet_stale c' h1 key e t3 Hk Httl). simpl.
    by rewrite Hr, Hroute, Hcli2.
  - simpl. by rewrite Hs4.
  - simpl. by rewrite Hs6.
Qed.

(** [www.example.com] asked at instant 0 and again 300 seconds later,
    when the record of [TTL] 300 has just expired: the upstream builds
    a second array, and the first is as it was. *)
Lemma Query_after_expiry_witness :
  snd (Query (fst (fst (Query routedClient ∅ "www.example.com" TypeA 0 0)))
             {[ 1%positive := [mkAnswer "www.example.com." 1 300 "192.0.2.10"] ]}
             "www.example.com" TypeA 300000000000 300000000000)
  = Some 2%positive.
Proof.
  rewrite (Query_after_expiry routedClient ∅
             {[ 1%positive := [mkAnswer "www.example.com." 1 300 "192.0.2.10"] ]}
             (fst (upstream "192.0.2.10" 300
                     {[ 1%positive := [mkAnswer "www.example.com." 1 300 "192.0.2.10"] ]}
                     "www.example.com." 1))
             "www.example.com" TypeA 0 0 300000000000 300000000000
             (upstream "192.0.2.10" 300) (Some 1%positive) (Some 2%positive)
             (mkAnswer "www.example.com." 1 300 "192.0.2.10") []).
  - done.
  - by intros _.
  - by intros [=].
  - by_compute.
  - by_compute.
  - by_compute.
  - by_compute.
  - split; [by_compute | vm_compute; discriminate].
  - vm_compute. discriminate.
  - by_compute.
Defined.
